(** * functionsdk.client: the Function Network client wrapper

    A shallow embedding of [src/functionsdk/client.py].  The client adapts
    a generated gRPC service stub: construction validates the API key,
    parses the base URL and binds a stub to a channel; five methods
    forward to the stub; the streaming method peeks the first chunk for
    its role and wraps the rest of the stream in an async generator.

    Effects are explicit.  A computation returns the trace of calls it
    made to its collaborators together with a Python outcome (a value or
    a raised exception).  Async generators are state machines advanced by
    their [__anext__]. *)

From Stdlib Require Import String List ZArith Bool Lia.
Import ListNotations.
Local Open Scope string_scope.

(** ** Python outcomes *)

(** The exceptions that occur in the client: the two the source names
    ([ValueError], [StopAsyncIteration]), the two the runtime of
    generators is concerned with, and [Fault] for anything a collaborator
    (channel, stub, remote service) raises. *)
Inductive exn : Type :=
| ValueError (msg : string)
| StopIteration
| StopAsyncIteration
| RuntimeError (msg : string)
| Fault (msg : string).

Inductive outcome (A : Type) : Type :=
| Return (a : A)
| Raise (e : exn).
Arguments Return {A} a.
Arguments Raise {A} e.

(** ** Collaborators' data *)

(** The result of [urllib.parse.urlparse], restricted to the attributes
    the client reads.  [port] is a property that raises [ValueError] on a
    port that is not a number in range, hence an outcome. *)
Module urllib.
Record ParseResult : Type := {
  scheme : string;
  hostname : option string;
  port : outcome (option Z);
  path : string }.
End urllib.

(** The keyword arguments of [grpclib.client.Channel]. *)
Module grpclib.
Record Channel : Type := {
  host : option string;
  port : option Z;
  path : string;
  ssl : bool }.
End grpclib.

(** The message types generated from the gateway's protobuf schema, which
    the client passes through without looking inside. *)
Class Messages : Type := {
  ChatCompleteMessage : Type;
  ChatCompleteResponse : Type;
  EmbedResponse : Type;
  ImageQuality : Type;
  TextToImageResponseImage : Type;
  TranscribeResponse : Type }.

(** Modelled from the spec: the generated streaming chunk type
    [functionsdk.ChatCompleteStreamResponse] is not under src/; the spec
    gives its shape as a stream of [{response:{role, content}}] chunks,
    and the client reads [chunk.response.role] and
    [chunk.response.content]. *)
Module functionsdk.
Record ChunkResponse : Type := {
  role : string;
  content : string }.
Record ChatCompleteStreamResponse : Type := {
  response : ChunkResponse }.
End functionsdk.

(** ** Async generators *)

(** The stream the stub hands back: the chunks it has yet to yield and,
    after them, either normal completion ([None]) or a fault. *)
Record AsyncGenerator (A : Type) : Type := {
  pending : list A;
  failure : option exn }.
Arguments pending {A} _.
Arguments failure {A} _.

(** [raw.__anext__()]: the next chunk; at the end of the chunks the fault
    if there is one, and [StopAsyncIteration] from then on. *)
Definition anext {A : Type} (g : AsyncGenerator A)
  : outcome A * AsyncGenerator A :=
  match pending g with
  | x :: rest => (Return x, {| pending := rest; failure := failure g |})
  | [] =>
      match failure g with
      | Some e => (Raise e, {| pending := []; failure := None |})
      | None => (Raise StopAsyncIteration, g)
      end
  end.

(** What resuming the body of an async generator function can do: reach a
    [yield], fall off its end, or let an exception escape. *)
Inductive resumption (A S : Type) : Type :=
| Yielded (a : A) (s : S)
| Returned
| Thrown (e : exn).
Arguments Yielded {A S} a s.
Arguments Returned {A S}.
Arguments Thrown {A S} e.

(** The runtime never lets [StopIteration] or [StopAsyncIteration] escape
    the body of an async generator: it replaces them with a
    [RuntimeError]. *)
Definition agen_escape (e : exn) : exn :=
  match e with
  | StopAsyncIteration =>
      RuntimeError "async generator raised StopAsyncIteration"
  | StopIteration => RuntimeError "async generator raised StopIteration"
  | _ => e
  end.

(** ** The stub and the environment *)

(** [APIGatewayServiceStub(channel, metadata=...)]: the stub keeps the
    channel and the metadata it was bound to. *)
Record APIGatewayServiceStub : Type := {
  channel : grpclib.Channel;
  metadata : list (string * string) }.

Section Embedding.
Context {MSG : Messages}.

(** Modelled from the spec: the generated [TextToImageResponse] is not
    under src/; the spec gives its shape as [{images: list of ...}]. *)
Record TextToImageResponse : Type := {
  images : list TextToImageResponseImage }.

(** Everything outside the repository the client depends on: the URL
    parser, whether [Channel(...)] rejects its arguments, and what the
    remote service answers to a call made through a given stub. *)
Class Environment : Type := {
  urlparse : string -> outcome urllib.ParseResult;
  channel_error : grpclib.Channel -> option exn;
  remote_chat_complete :
    APIGatewayServiceStub -> string -> list ChatCompleteMessage ->
    outcome ChatCompleteResponse;
  remote_chat_complete_stream :
    APIGatewayServiceStub -> string -> list ChatCompleteMessage ->
    AsyncGenerator functionsdk.ChatCompleteStreamResponse;
  remote_embed :
    APIGatewayServiceStub -> string -> string -> outcome EmbedResponse;
  remote_text_to_image :
    APIGatewayServiceStub -> string -> string -> Z -> ImageQuality ->
    string -> outcome TextToImageResponse;
  remote_transcribe :
    APIGatewayServiceStub -> string -> string ->
    outcome TranscribeResponse }.

(** The request of each remote operation, with the field names of the
    keyword arguments the client passes. *)
Inductive Request : Type :=
| ChatCompleteRequest (model : string) (message : list ChatCompleteMessage)
| ChatCompleteStreamRequest
    (model : string) (message : list ChatCompleteMessage)
| EmbedRequest (model input : string)
| TextToImageRequest
    (model prompt : string) (count : Z) (quality : ImageQuality)
    (size : string)
| TranscribeRequest (model url : string).

(** What the client does to the outside world. *)
Inductive event : Type :=
| OpenChannel (c : grpclib.Channel)
| RemoteCall
    (c : grpclib.Channel) (headers : list (string * string))
    (req : Request).

(** ** The monad of client computations: a trace and an outcome *)

Definition M (A : Type) : Type := (list event * outcome A)%type.

Definition ret {A : Type} (a : A) : M A := ([], Return a).

Definition raise {A : Type} (e : exn) : M A := ([], Raise e).

Definition lift {A : Type} (o : outcome A) : M A := ([], o).

Definition tell (evs : list event) : M unit := (evs, Return tt).

Definition bind {A B : Type} (m : M A) (f : A -> M B) : M B :=
  match m with
  | (t, Return a) => let (t', r) := f a in ((t ++ t')%list, r)
  | (t, Raise e) => (t, Raise e)
  end.

Definition trace {A : Type} (m : M A) : list event := fst m.

Definition result {A : Type} (m : M A) : outcome A := snd m.
End Embedding.

Arguments Environment MSG : clear implicits.
Arguments M MSG A : clear implicits.

Declare Scope client_scope.
Delimit Scope client_scope with client.
Notation "x <- m ;; k" := (bind m (fun x => k))
  (at level 100, m at next level, right associativity) : client_scope.
Notation "m ;; k" := (bind m (fun _ => k))
  (at level 100, right associativity) : client_scope.
Local Open Scope client_scope.

(** Modelled from the spec: the methods of the generated
    [APIGatewayServiceStub] are not under src/.  The spec describes the
    stub as bound to a channel with the API key attached as a per-call
    header, and lists the request fields of each operation: a call sends
    the request over the stub's channel with the stub's metadata and
    returns what the remote service answers. *)
Module Stub.
Section Stub.
Context {MSG : Messages} {ENV : Environment MSG}.

Definition call (self : APIGatewayServiceStub) (req : Request)
  : M MSG unit :=
  tell [RemoteCall (channel self) (metadata self) req].

Definition chat_complete (self : APIGatewayServiceStub)
    (model : string) (message : list ChatCompleteMessage)
  : M MSG ChatCompleteResponse :=
  call self (ChatCompleteRequest model message) ;;
  lift (remote_chat_complete self model message).

Definition chat_complete_stream (self : APIGatewayServiceStub)
    (model : string) (message : list ChatCompleteMessage)
  : M MSG (AsyncGenerator functionsdk.ChatCompleteStreamResponse) :=
  call self (ChatCompleteStreamRequest model message) ;;
  ret (remote_chat_complete_stream self model message).

Definition embed (self : APIGatewayServiceStub) (model input : string)
  : M MSG EmbedResponse :=
  call self (EmbedRequest model input) ;;
  lift (remote_embed self model input).

Definition text_to_image (self : APIGatewayServiceStub)
    (model prompt : string) (count : Z) (quality : ImageQuality)
    (size : string)
  : M MSG TextToImageResponse :=
  call self (TextToImageRequest model prompt count quality size) ;;
  lift (remote_text_to_image self model prompt count quality size).

Definition transcribe (self : APIGatewayServiceStub) (model url : string)
  : M MSG TranscribeResponse :=
  call self (TranscribeRequest model url) ;;
  lift (remote_transcribe self model url).
End Stub.
End Stub.

(** ** [_chat_complete_stream_wrapper] *)

(** The generator object a call of [_chat_complete_stream_wrapper]
    makes.  It holds the base stream it iterates; it is created, then
    suspended at its [yield], then closed. *)
Inductive TokenStream : Type :=
| GenCreated (base : AsyncGenerator functionsdk.ChatCompleteStreamResponse)
| GenSuspended (base : AsyncGenerator functionsdk.ChatCompleteStreamResponse)
| GenClosed.

(** Calling the async generator function runs none of its body. *)
Definition _chat_complete_stream_wrapper
    (base : AsyncGenerator functionsdk.ChatCompleteStreamResponse)
  : TokenStream :=
  GenCreated base.

(** The body, resumed up to its next suspension:
    [async for chunk in base: yield chunk.response.content] asks the base
    for a chunk and yields its content; when the base is exhausted the
    loop ends and the last line, [raise StopAsyncIteration], runs; any
    other exception of the base escapes the loop. *)
Definition _chat_complete_stream_wrapper_body
    (base : AsyncGenerator functionsdk.ChatCompleteStreamResponse)
  : resumption string (AsyncGenerator functionsdk.ChatCompleteStreamResponse) :=
  match anext base with
  | (Return chunk, base') =>
      Yielded (functionsdk.content (functionsdk.response chunk)) base'
  | (Raise StopAsyncIteration, _) => Thrown StopAsyncIteration
  | (Raise e, _) => Thrown e
  end.

(** [tokenStream.__anext__()]: resume the body and hand its yield to the
    consumer.  A body that returns ends the iteration with
    [StopAsyncIteration]; an exception that escapes the body closes the
    generator and reaches the consumer through [agen_escape]; a closed
    generator raises [StopAsyncIteration]. *)
Definition TokenStream_anext (g : TokenStream) : outcome string * TokenStream :=
  match g with
  | GenCreated base | GenSuspended base =>
      match _chat_complete_stream_wrapper_body base with
      | Yielded tok base' => (Return tok, GenSuspended base')
      | Returned => (Raise StopAsyncIteration, GenClosed)
      | Thrown e => (Raise (agen_escape e), GenClosed)
      end
  | GenClosed => (Raise StopAsyncIteration, GenClosed)
  end.

(** How a consumer's [async for tok in tokenStream] ends: the iterator is
    exhausted ([StopAsyncIteration], which the loop absorbs), or an
    exception reaches the consumer. *)
Inductive ending : Type :=
| Exhausted
| Raised (e : exn).

(** [async for tok in g: tokens.append(tok)], at most [fuel] calls of
    [__anext__]: the tokens received and how the loop ended, or [None]
    when the fuel ran out first. *)
Fixpoint drain (fuel : nat) (g : TokenStream) : option (list string * ending) :=
  match fuel with
  | O => None
  | S fuel' =>
      match TokenStream_anext g with
      | (Return tok, g') =>
          match drain fuel' g' with
          | Some (toks, e) => Some (tok :: toks, e)
          | None => None
          end
      | (Raise StopAsyncIteration, _) => Some ([], Exhausted)
      | (Raise e, _) => Some ([], Raised e)
      end
  end.

(** [n] calls of [tokenStream.__anext__()] in a row, as a consumer makes
    who steps the iterator by hand: what each call returned or raised,
    and the generator afterwards. *)
Fixpoint pull (n : nat) (g : TokenStream)
  : list (outcome string) * TokenStream :=
  match n with
  | O => ([], g)
  | S n' =>
      let (got, g') := TokenStream_anext g in
      let (more, g'') := pull n' g' in
      (got :: more, g'')
  end.

(** The contents of a list of chunks, in order. *)
Definition contents (chunks : list functionsdk.ChatCompleteStreamResponse)
  : list string :=
  map (fun chunk => functionsdk.content (functionsdk.response chunk)) chunks.

(** What [__anext__] of a base stream raises once its chunks are used up. *)
Definition stream_end (failure : option exn) : exn :=
  match failure with
  | Some e => e
  | None => StopAsyncIteration
  end.

(** The chunk [{response: {role, content}}]. *)
Definition chunk (role content : string)
  : functionsdk.ChatCompleteStreamResponse :=
  {| functionsdk.response :=
       {| functionsdk.role := role; functionsdk.content := content |} |}.

(** ** [ClientOptions], [ChatCompleteStreamResponse], [Client] *)

Definition DEFAULT_BASE_PATH : string := "https://api.function.network".

(** [apiKey] is annotated [str], and the constructor also tests it for
    [None]: [None] here is Python's [None]. *)
Record ClientOptions : Type := {
  apiKey : option string;
  baseUrl : string }.

(** [ClientOptions(apiKey=k)]: the dataclass default of [baseUrl]. *)
Definition ClientOptions_default (k : option string) : ClientOptions :=
  {| apiKey := k; baseUrl := DEFAULT_BASE_PATH |}.

Record ChatCompleteStreamResponse : Type := {
  role : string;
  tokenStream : TokenStream }.

Module Client.
(** The class attribute [_service] is never read; [__init__] sets, and
    the methods use, the instance attribute [service]. *)
Record t : Type := {
  service : APIGatewayServiceStub }.

Section Client.
Context {MSG : Messages} {ENV : Environment MSG}.

(** [Channel(host=..., port=..., path=..., ssl=...)]. *)
Definition Channel (c : grpclib.Channel) : M MSG grpclib.Channel :=
  tell [OpenChannel c] ;;
  match channel_error c with
  | Some e => raise e
  | None => ret c
  end.

Definition __init__ (options : ClientOptions) : M MSG t :=
  match apiKey options with
  | None => raise (ValueError "apiKey must be specified")
  | Some key =>
      if String.eqb key "" then raise (ValueError "apiKey must be specified")
      else
        url <- lift (urlparse (baseUrl options)) ;;
        port <- lift (urllib.port url) ;;
        channel <- Channel {| grpclib.host := urllib.hostname url;
                              grpclib.port := port;
                              grpclib.path := urllib.path url;
                              grpclib.ssl := String.eqb (urllib.scheme url) "https" |} ;;
        ret {| service := {| channel := channel;
                             metadata := [("x-api-key", key)] |} |}
  end.

Definition chat_complete (self : t)
    (model : string) (messages : list ChatCompleteMessage)
  : M MSG ChatCompleteResponse :=
  Stub.chat_complete (service self) model messages.

Definition chat_complete_stream (self : t)
    (model : string) (messages : list ChatCompleteMessage)
  : M MSG ChatCompleteStreamResponse :=
  raw <- Stub.chat_complete_stream (service self) model messages ;;
  let (got, raw') := anext raw in
  first <- lift got ;;
  let role := functionsdk.role (functionsdk.response first) in
  ret {| role := role;
         tokenStream := _chat_complete_stream_wrapper raw' |}.

Definition embed (self : t) (model input_string : string)
  : M MSG EmbedResponse :=
  Stub.embed (service self) model input_string.

Definition text_to_image (self : t)
    (model prompt : string) (count : Z) (quality : ImageQuality)
    (size : string)
  : M MSG (list TextToImageResponseImage) :=
  res <- Stub.text_to_image (service self) model prompt count quality size ;;
  ret (images res).

Definition transcribe (self : t) (model url : string)
  : M MSG TranscribeResponse :=
  Stub.transcribe (service self) model url.
End Client.
End Client.

(** ** A sample environment

    One concrete instance of the message types and of the environment, on
    which the statements below are evaluated. *)

Definition sample_messages : Messages := {|
  ChatCompleteMessage := functionsdk.ChunkResponse;
  ChatCompleteResponse := string;
  EmbedResponse := list Z;
  ImageQuality := bool;
  TextToImageResponseImage := string;
  TranscribeResponse := string |}.

(** What [urlparse] gives on three URLs: the default gateway, a plain
    HTTP URL with a port and a path, and a URL whose port is not a
    number.  Every other string is taken as a relative reference. *)
Definition sample_urlparse (u : string) : outcome urllib.ParseResult :=
  if String.eqb u "https://api.function.network" then
    Return {| urllib.scheme := "https";
              urllib.hostname := Some "api.function.network";
              urllib.port := Return None;
              urllib.path := "" |}
  else if String.eqb u "http://localhost:8080/v1" then
    Return {| urllib.scheme := "http";
              urllib.hostname := Some "localhost";
              urllib.port := Return (Some 8080%Z);
              urllib.path := "/v1" |}
  else if String.eqb u "https://localhost:grpc" then
    Return {| urllib.scheme := "https";
              urllib.hostname := Some "localhost";
              urllib.port := Raise (ValueError "Port could not be cast to integer value");
              urllib.path := "" |}
  else
    Return {| urllib.scheme := "";
              urllib.hostname := None;
              urllib.port := Return None;
              urllib.path := u |}.

(** A remote service that streams the chunks ["Hi"] and [" there"] for
    the model ["chat"] and nothing for any other model, and gives fixed
    answers to the unary calls; it returns two images whatever the
    requested count. *)
Definition sample_environment : Environment sample_messages :=
  @Build_Environment sample_messages
    sample_urlparse
    (fun _ => None)
    (fun _ _ _ => Return "Hello")
    (fun _ model _ =>
       if String.eqb model "chat" then
         {| pending := [chunk "assistant" "Hi"; chunk "assistant" " there"];
            failure := None |}
       else {| pending := []; failure := None |})
    (fun _ _ _ => Return [1%Z; 2%Z])
    (fun _ _ _ _ _ _ =>
       Return (@Build_TextToImageResponse sample_messages
                 ["https://img/0"; "https://img/1"]))
    (fun _ _ _ => Return "transcript").

Definition sample_channel : grpclib.Channel := {|
  grpclib.host := Some "api.function.network";
  grpclib.port := None;
  grpclib.path := "";
  grpclib.ssl := true |}.

Definition sample_client : Client.t := {|
  Client.service := {| channel := sample_channel;
                       metadata := [("x-api-key", "secret")] |} |}.

(** The sample environment with a chat stream that breaks: it produces
    three chunks and then fails with a transport fault. *)
Definition sample_broken_stream
  : AsyncGenerator functionsdk.ChatCompleteStreamResponse :=
  {| pending := [chunk "assistant" ""; chunk "assistant" "Hel";
                 chunk "assistant" "lo"];
     failure := Some (Fault "connection reset") |}.

Definition sample_faulty_environment : Environment sample_messages :=
  @Build_Environment sample_messages
    sample_urlparse
    (fun _ => None)
    (fun _ _ _ => Raise (Fault "unavailable"))
    (fun _ _ _ => sample_broken_stream)
    (fun _ _ _ => Raise (Fault "unavailable"))
    (fun _ _ _ _ _ _ => Raise (Fault "unavailable"))
    (fun _ _ _ => Raise (Fault "unavailable")).

(** * Properties *)

(** ** The token stream *)

Lemma agen_escape_not_stop (e : exn) : agen_escape e <> StopAsyncIteration.
Proof. destruct e; discriminate. Qed.

(** An exception that went through [agen_escape] ends the consumer's loop
    as an exception, never as exhaustion. *)
Lemma drain_escape (fuel : nat) (base : AsyncGenerator _) (e : exn) :
  _chat_complete_stream_wrapper_body base = Thrown e ->
  drain (S fuel) (GenSuspended base) = Some ([], Raised (agen_escape e)).
Proof.
  intros Hbody. simpl. rewrite Hbody.
  destruct e; reflexivity.
Qed.

Lemma body_yields chunk rest failure :
  _chat_complete_stream_wrapper_body
    {| pending := chunk :: rest; failure := failure |}
  = Yielded (functionsdk.content (functionsdk.response chunk))
      {| pending := rest; failure := failure |}.
Proof. reflexivity. Qed.

Lemma body_throws failure :
  _chat_complete_stream_wrapper_body {| pending := []; failure := failure |}
  = Thrown (stream_end failure).
Proof.
  unfold _chat_complete_stream_wrapper_body, anext. simpl.
  destruct failure as [e|]; [destruct e|]; reflexivity.
Qed.

(** A suspended token stream yields the contents of the chunks its base
    has left, then raises what the end of the base became on its way out
    of the generator body. *)
Lemma drain_suspended (rest : list functionsdk.ChatCompleteStreamResponse)
    (failure : option exn) :
  forall fuel, length rest < fuel ->
    drain fuel (GenSuspended {| pending := rest; failure := failure |})
    = Some (contents rest, Raised (agen_escape (stream_end failure))).
Proof.
  induction rest as [|c rest IH]; intros fuel Hfuel.
  - destruct fuel as [|fuel]; [inversion Hfuel|].
    apply drain_escape, body_throws.
  - destruct fuel as [|fuel]; [inversion Hfuel|].
    cbn [drain TokenStream_anext]. rewrite body_yields.
    rewrite IH by (simpl in Hfuel; lia).
    reflexivity.
Qed.

(** The first [__anext__] of a created generator does what the next one
    of a suspended generator does. *)
Lemma drain_created (base : AsyncGenerator _) (fuel : nat) :
  drain fuel (GenCreated base) = drain fuel (GenSuspended base).
Proof. destruct fuel; reflexivity. Qed.

(** A token stream that has not been closed never ends by exhaustion. *)
Lemma drain_never_exhausted (base : AsyncGenerator _) (fuel : nat)
    (toks : list string) :
  drain fuel (_chat_complete_stream_wrapper base) <> Some (toks, Exhausted).
Proof.
  unfold _chat_complete_stream_wrapper. rewrite drain_created.
  destruct base as [rest failure].
  destruct (Nat.lt_ge_cases (length rest) fuel) as [Hlt|Hge].
  - rewrite drain_suspended by assumption. discriminate.
  - revert fuel toks Hge.
    induction rest as [|c rest IH]; intros fuel toks Hge.
    + simpl in Hge. assert (fuel = 0) by lia. subst. discriminate.
    + destruct fuel as [|fuel]; [discriminate|].
      cbn [drain TokenStream_anext]. rewrite body_yields.
      destruct (drain fuel (GenSuspended {| pending := rest; failure := failure |}))
        as [[toks' e']|] eqn:Hd; [|discriminate].
      intros Heq. inversion Heq; subst.
      apply (IH fuel toks'); [simpl in Hge; lia|assumption].
Qed.

Section Properties.
Context {MSG : Messages} {ENV : Environment MSG}.

(** What [chat_complete_stream] does on a stream that has a first chunk:
    one remote call, the role of that chunk, and a fresh generator over
    the rest of the stream. *)
Lemma chat_complete_stream_first (self : Client.t) (model : string)
    (messages : list ChatCompleteMessage) first rest failure :
  remote_chat_complete_stream (Client.service self) model messages
    = {| pending := first :: rest; failure := failure |} ->
  Client.chat_complete_stream self model messages
  = ([RemoteCall (channel (Client.service self))
        (metadata (Client.service self))
        (ChatCompleteStreamRequest model messages)],
     Return {| role := functionsdk.role (functionsdk.response first);
               tokenStream :=
                 GenCreated {| pending := rest; failure := failure |} |}).
Proof.
  intros Hraw.
  unfold Client.chat_complete_stream, Stub.chat_complete_stream, Stub.call.
  cbn. rewrite Hraw. reflexivity.
Qed.

(** What it does on a stream without chunks: the remote call, and the
    end of the stream raised to the caller. *)
Lemma chat_complete_stream_none (self : Client.t) (model : string)
    (messages : list ChatCompleteMessage) failure :
  remote_chat_complete_stream (Client.service self) model messages
    = {| pending := []; failure := failure |} ->
  Client.chat_complete_stream self model messages
  = ([RemoteCall (channel (Client.service self))
        (metadata (Client.service self))
        (ChatCompleteStreamRequest model messages)],
     Raise (stream_end failure)).
Proof.
  intros Hraw.
  unfold Client.chat_complete_stream, Stub.chat_complete_stream, Stub.call.
  cbn. rewrite Hraw. destruct failure; reflexivity.
Qed.

(** ** Streaming *)

(** C1 (amended): against a stream that produces the chunks
    [{role:"assistant", content:"Hi"}] and
    [{role:"assistant", content:" there"}], [chat_complete_stream]
    returns a record whose [role] is ["assistant"] while its
    [tokenStream] is a generator nothing has been read from, and iterating
    [tokenStream] yields exactly [" there"]: the first chunk is read for
    its role, and its content is not part of the token stream. *)
Theorem chat_complete_stream_role_then_rest :
  forall (self : Client.t) (model : string)
         (messages : list ChatCompleteMessage),
    remote_chat_complete_stream (Client.service self) model messages
      = {| pending := [chunk "assistant" "Hi"; chunk "assistant" " there"];
           failure := None |} ->
    exists resp,
      result (Client.chat_complete_stream self model messages) = Return resp /\
      role resp = "assistant" /\
      tokenStream resp
        = GenCreated {| pending := [chunk "assistant" " there"];
                        failure := None |} /\
      forall fuel, 1 < fuel ->
        exists e, drain fuel (tokenStream resp) = Some ([" there"], e).
Proof.
  intros self model messages Hraw.
  eexists. unfold result.
  rewrite (chat_complete_stream_first _ _ _ _ _ _ Hraw). cbn [snd].
  split; [reflexivity|].
  split; [reflexivity|].
  split; [reflexivity|].
  intros fuel Hfuel. cbn [tokenStream]. eexists.
  rewrite drain_created, drain_suspended by (simpl; lia).
  reflexivity.
Qed.

(** C2: on a stream of chunks that completes, iterating [tokenStream]
    yields the contents of the chunks after the first and then raises
    [RuntimeError] to the consumer: the generator's last line raises
    [StopAsyncIteration] inside the generator body, which the runtime
    turns into a [RuntimeError], so the iteration does not end by normal
    exhaustion. *)
Theorem tokenStream_ends_with_RuntimeError :
  forall (self : Client.t) (model : string)
         (messages : list ChatCompleteMessage) first rest,
    remote_chat_complete_stream (Client.service self) model messages
      = {| pending := first :: rest; failure := None |} ->
    exists resp,
      result (Client.chat_complete_stream self model messages) = Return resp /\
      (forall fuel, length rest < fuel ->
         drain fuel (tokenStream resp)
         = Some (contents rest,
                 Raised (RuntimeError
                           "async generator raised StopAsyncIteration"))) /\
      (forall fuel toks,
         drain fuel (tokenStream resp) <> Some (toks, Exhausted)).
Proof.
  intros self model messages first rest Hraw.
  eexists. unfold result.
  rewrite (chat_complete_stream_first _ _ _ _ _ _ Hraw). cbn [snd tokenStream].
  split; [reflexivity|split].
  - intros fuel Hfuel. cbn [tokenStream].
    rewrite drain_created, drain_suspended by assumption. reflexivity.
  - intros fuel toks. cbn [tokenStream]. apply drain_never_exhausted.
Qed.

(** C4: against a stream that yields no chunk, [chat_complete_stream]
    raises the end of the stream ([StopAsyncIteration] when the stream
    completed, the stream's fault otherwise) and returns no response
    record. *)
Theorem chat_complete_stream_empty_fails :
  forall (self : Client.t) (model : string)
         (messages : list ChatCompleteMessage),
    pending (remote_chat_complete_stream (Client.service self) model messages)
      = [] ->
    result (Client.chat_complete_stream self model messages)
      = Raise (stream_end
                 (failure (remote_chat_complete_stream
                             (Client.service self) model messages))) /\
    (failure (remote_chat_complete_stream (Client.service self) model messages)
       = None ->
     result (Client.chat_complete_stream self model messages)
       = Raise StopAsyncIteration) /\
    forall resp,
      result (Client.chat_complete_stream self model messages) <> Return resp.
Proof.
  intros self model messages Hpending.
  destruct (remote_chat_complete_stream (Client.service self) model messages)
    as [chunks fault] eqn:Hraw.
  simpl in Hpending; subst chunks. unfold result.
  rewrite (chat_complete_stream_none _ _ _ _ Hraw). cbn [snd failure].
  split; [reflexivity|split].
  - intros ->. reflexivity.
  - discriminate.
Qed.

(** ** Construction *)

(** C3: whatever the base URL, constructing a client from options whose
    API key is [None] or the empty string raises
    [ValueError("apiKey must be specified")] without having opened a
    channel or made a remote call, and returns no client. *)
Theorem init_rejects_missing_api_key :
  forall (options : ClientOptions),
    apiKey options = None \/ apiKey options = Some "" ->
    trace (Client.__init__ options) = [] /\
    result (Client.__init__ options)
      = Raise (ValueError "apiKey must be specified") /\
    forall self, result (Client.__init__ options) <> Return self.
Proof.
  intros options Hkey.
  assert (Client.__init__ options
          = ([], Raise (ValueError "apiKey must be specified"))) as ->.
  { unfold Client.__init__. destruct Hkey as [-> | ->]; reflexivity. }
  split; [reflexivity|].
  split; [reflexivity|].
  intros self. discriminate.
Qed.

(** What [__init__] does once the API key has passed the check. *)
Lemma init_with_key (key base : string) :
  key <> "" ->
  Client.__init__ {| apiKey := Some key; baseUrl := base |}
  = match urlparse base with
    | Raise e => ([], Raise e)
    | Return url =>
        match urllib.port url with
        | Raise e => ([], Raise e)
        | Return port =>
            let c := {| grpclib.host := urllib.hostname url;
                        grpclib.port := port;
                        grpclib.path := urllib.path url;
                        grpclib.ssl :=
                          String.eqb (urllib.scheme url) "https" |} in
            ([OpenChannel c],
             match channel_error c with
             | Some e => Raise e
             | None =>
                 Return {| Client.service :=
                             {| channel := c;
                                metadata := [("x-api-key", key)] |} |}
             end)
        end
    end.
Proof.
  intros Hkey. unfold Client.__init__. cbn [apiKey baseUrl].
  apply String.eqb_neq in Hkey. rewrite Hkey.
  destruct (urlparse base) as [url|e]; [|reflexivity].
  cbn. destruct (urllib.port url) as [port|e]; [|reflexivity].
  cbn. unfold Client.Channel.
  destruct (channel_error _); reflexivity.
Qed.

(** A client is only ever returned for a key that passed the check. *)
Lemma init_returns_key (options : ClientOptions) (self : Client.t) :
  result (Client.__init__ options) = Return self ->
  exists key, apiKey options = Some key /\ key <> "".
Proof.
  destruct options as [[key|] url]; unfold Client.__init__; cbn [apiKey].
  - destruct (String.eqb_spec key "") as [->|Hne]; [discriminate|].
    intros _. exists key. split; [reflexivity|assumption].
  - discriminate.
Qed.

(** C5: when construction returns a client, the one channel it opened
    has the host, port and path that [urlparse] found in the base URL,
    and has TLS enabled if and only if the parsed scheme is [https]. *)
Theorem channel_follows_base_url :
  forall (options : ClientOptions) (self : Client.t),
    result (Client.__init__ options) = Return self ->
    exists url port,
      urlparse (baseUrl options) = Return url /\
      urllib.port url = Return port /\
      trace (Client.__init__ options)
        = [OpenChannel (channel (Client.service self))] /\
      grpclib.host (channel (Client.service self)) = urllib.hostname url /\
      grpclib.port (channel (Client.service self)) = port /\
      grpclib.path (channel (Client.service self)) = urllib.path url /\
      (grpclib.ssl (channel (Client.service self)) = true
       <-> urllib.scheme url = "https").
Proof.
  intros options self Hinit.
  destruct (init_returns_key _ _ Hinit) as (key & Hkey & Hne).
  destruct options as [k u]. cbn [apiKey] in Hkey. subst k.
  cbn [baseUrl]. revert Hinit. unfold result, trace.
  rewrite (init_with_key key u Hne).
  destruct (urlparse u) as [url|e]; [|discriminate].
  destruct (urllib.port url) as [port|e] eqn:Hport; [|discriminate].
  cbn [fst snd].
  destruct (channel_error _); [discriminate|].
  intros Hself. inversion Hself; subst self; clear Hself.
  exists url, port. cbn.
  split; [reflexivity|].
  split; [exact Hport|].
  repeat (split; [reflexivity|]).
  apply String.eqb_eq.
Qed.

(** C9: an API key that is a string other than the empty one passes the
    check, whatever it contains: construction goes on to parse the base
    URL and, unless the parser raises, opens the channel and binds the
    stub to it with that key. *)
Theorem init_accepts_nonempty_api_key :
  forall (key base : string),
    key <> "" ->
    let init := Client.__init__ {| apiKey := Some key; baseUrl := base |} in
    (forall url port,
       urlparse base = Return url ->
       urllib.port url = Return port ->
       let c := {| grpclib.host := urllib.hostname url;
                   grpclib.port := port;
                   grpclib.path := urllib.path url;
                   grpclib.ssl := String.eqb (urllib.scheme url) "https" |} in
       trace init = [OpenChannel c] /\
       result init
       = match channel_error c with
         | Some e => Raise e
         | None =>
             Return {| Client.service :=
                         {| channel := c;
                            metadata := [("x-api-key", key)] |} |}
         end) /\
    (forall e, urlparse base = Raise e -> init = ([], Raise e)) /\
    (forall url e,
       urlparse base = Return url -> urllib.port url = Raise e ->
       init = ([], Raise e)).
Proof.
  intros key u Hne init. subst init.
  rewrite (init_with_key key u Hne).
  split; [|split].
  - intros url port -> ->. split; reflexivity.
  - intros e ->. reflexivity.
  - intros url e -> ->. reflexivity.
Qed.

(** ** The unary calls *)

(** C6: whatever value the stub's [chat_complete], [embed] or
    [transcribe] returns, the client's method of the same name returns
    that value. *)
Theorem unary_calls_pass_through :
  forall (self : Client.t),
    (forall model messages r,
       result (Stub.chat_complete (Client.service self) model messages)
         = Return r ->
       result (Client.chat_complete self model messages) = Return r) /\
    (forall model input_string r,
       result (Stub.embed (Client.service self) model input_string)
         = Return r ->
       result (Client.embed self model input_string) = Return r) /\
    (forall model url r,
       result (Stub.transcribe (Client.service self) model url) = Return r ->
       result (Client.transcribe self model url) = Return r).
Proof.
  intros self. split; [|split]; intros ? ? r Hstub; exact Hstub.
Qed.

(** C7: whatever response the stub's [text_to_image] returns, the
    client's [text_to_image] returns the [images] list of that response,
    the same elements in the same order, for every requested count. *)
Theorem text_to_image_returns_images :
  forall (self : Client.t) (model prompt : string) (count : Z)
         (quality : ImageQuality) (size : string)
         (res : TextToImageResponse),
    result (Stub.text_to_image (Client.service self)
              model prompt count quality size) = Return res ->
    exists imgs,
      result (Client.text_to_image self model prompt count quality size)
        = Return imgs /\
      imgs = images res /\
      length imgs = length (images res).
Proof.
  intros self model prompt count quality size res Hstub.
  exists (images res). split; [|split; reflexivity].
  revert Hstub.
  unfold Client.text_to_image, Stub.text_to_image, Stub.call, result. cbn.
  destruct (remote_text_to_image _ _ _ _ _ _) as [res'|e]; cbn.
  - intros Hres. inversion Hres. reflexivity.
  - discriminate.
Qed.

(** C10: [text_to_image] issues one remote call, whose request carries
    the model, prompt, count, quality and size it was given, for every
    integer count and every size string; nothing is checked on the way,
    so the outcome is the remote answer to exactly those values. *)
Theorem text_to_image_forwards_arguments :
  forall (self : Client.t) (model prompt : string) (count : Z)
         (quality : ImageQuality) (size : string),
    trace (Client.text_to_image self model prompt count quality size)
    = [RemoteCall (channel (Client.service self))
         (metadata (Client.service self))
         (TextToImageRequest model prompt count quality size)] /\
    result (Client.text_to_image self model prompt count quality size)
    = match remote_text_to_image (Client.service self)
              model prompt count quality size with
      | Return res => Return (images res)
      | Raise e => Raise e
      end.
Proof.
  intros self model prompt count quality size.
  unfold Client.text_to_image, Stub.text_to_image, Stub.call, trace, result.
  cbn.
  destruct (remote_text_to_image _ _ _ _ _ _); split; reflexivity.
Qed.

(** ** Authentication *)

(** C8: a client constructed from options with API key [k] holds a stub
    bound to the metadata [x-api-key: k], and each of its five operations
    makes exactly one remote call, which carries that metadata. *)
Theorem every_call_carries_api_key :
  forall (options : ClientOptions) (self : Client.t) (k : string),
    apiKey options = Some k ->
    result (Client.__init__ options) = Return self ->
    let sent req :=
      [RemoteCall (channel (Client.service self)) [("x-api-key", k)] req] in
    metadata (Client.service self) = [("x-api-key", k)] /\
    (forall model messages,
       trace (Client.chat_complete self model messages)
       = sent (ChatCompleteRequest model messages)) /\
    (forall model messages,
       trace (Client.chat_complete_stream self model messages)
       = sent (ChatCompleteStreamRequest model messages)) /\
    (forall model input_string,
       trace (Client.embed self model input_string)
       = sent (EmbedRequest model input_string)) /\
    (forall model prompt count quality size,
       trace (Client.text_to_image self model prompt count quality size)
       = sent (TextToImageRequest model prompt count quality size)) /\
    (forall model url,
       trace (Client.transcribe self model url)
       = sent (TranscribeRequest model url)).
Proof.
  intros options self k Hk Hinit sent. subst sent.
  assert (metadata (Client.service self) = [("x-api-key", k)]) as Hmd.
  { destruct (init_returns_key _ _ Hinit) as (key & Hkey & Hne).
    destruct options as [k' u]. cbn [apiKey] in Hk, Hkey. subst k'.
    inversion Hkey; subst key. revert Hinit. unfold result.
    rewrite (init_with_key k u Hne).
    destruct (urlparse u) as [url|e]; [|discriminate].
    destruct (urllib.port url) as [port|e]; [|discriminate].
    cbn [snd]. destruct (channel_error _); [discriminate|].
    intros Hself. inversion Hself. reflexivity. }
  split; [exact Hmd|].
  rewrite <- Hmd.
  split; [|split; [|split; [|split]]]; intros.
  - unfold Client.chat_complete, Stub.chat_complete, Stub.call, trace. cbn.
    reflexivity.
  - unfold Client.chat_complete_stream, Stub.chat_complete_stream, Stub.call,
      trace. cbn.
    destruct (anext _) as [[first|e] raw']; reflexivity.
  - unfold Client.embed, Stub.embed, Stub.call, trace. cbn. reflexivity.
  - unfold Client.text_to_image, Stub.text_to_image, Stub.call, trace. cbn.
    destruct (remote_text_to_image _ _ _ _ _ _); reflexivity.
  - unfold Client.transcribe, Stub.transcribe, Stub.call, trace. cbn.
    reflexivity.
Qed.

End Properties.

(** * The statements on the sample environment *)

(** The default options with a key construct the sample client over the
    sample channel: host [api.function.network], no port, empty path,
    TLS enabled. *)
Example default_gateway_client :
  Client.__init__ (ENV := sample_environment)
    (ClientOptions_default (Some "secret"))
  = ([OpenChannel sample_channel], Return sample_client).
Proof. reflexivity. Qed.

(** A plain HTTP base URL gives a channel without TLS. *)
Example plain_http_client :
  trace (Client.__init__ (ENV := sample_environment)
           {| apiKey := Some "secret";
              baseUrl := "http://localhost:8080/v1" |})
  = [OpenChannel {| grpclib.host := Some "localhost";
                    grpclib.port := Some 8080%Z;
                    grpclib.path := "/v1";
                    grpclib.ssl := false |}].
Proof. reflexivity. Qed.

(** On the two chunks ["Hi"] and [" there"] the consumer receives
    [" there"] and then a [RuntimeError]. *)
Example sample_stream_run :
  match result (Client.chat_complete_stream (ENV := sample_environment)
                  sample_client "chat" []) with
  | Return resp => Some (role resp, drain 5 (tokenStream resp))
  | Raise _ => None
  end
  = Some ("assistant",
          Some ([" there"],
                Raised (RuntimeError
                          "async generator raised StopAsyncIteration"))).
Proof. reflexivity. Qed.

(** C1, as stated, fails on the sample stream of the two chunks: the call
    returns a record, and no iteration of its [tokenStream] yields
    ["Hi"; " there"] and then ends by exhaustion; already the tokens
    differ, since the iteration yields [" there"] alone. *)
Lemma chat_complete_stream_drops_first_content :
  @remote_chat_complete_stream sample_messages sample_environment
    (Client.service sample_client) "chat" []
  = {| pending := [chunk "assistant" "Hi"; chunk "assistant" " there"];
       failure := None |} /\
  (exists resp,
     result (Client.chat_complete_stream (ENV := sample_environment)
               sample_client "chat" []) = Return resp /\
     forall fuel, 1 < fuel ->
       exists e, drain fuel (tokenStream resp) = Some ([" there"], e)) /\
  ~ (exists resp,
       result (Client.chat_complete_stream (ENV := sample_environment)
                 sample_client "chat" []) = Return resp /\
       role resp = "assistant" /\
       exists fuel e,
         drain fuel (tokenStream resp) = Some (["Hi"; " there"], e)).
Proof.
  split; [reflexivity|split].
  - eexists. split; [reflexivity|].
    intros fuel Hfuel. cbn [tokenStream]. eexists.
    unfold _chat_complete_stream_wrapper.
    rewrite drain_created, drain_suspended by (simpl; lia).
    reflexivity.
  - intros (resp & Hres & _ & fuel & e & Hdrain).
    cbv in Hres. inversion Hres; subst resp; clear Hres.
    cbn [tokenStream] in Hdrain.
    destruct fuel as [|[|fuel]]; [discriminate|discriminate|].
    rewrite drain_created, drain_suspended in Hdrain by (simpl; lia).
    discriminate.
Qed.

Lemma chat_complete_stream_role_then_rest_witness :
  @remote_chat_complete_stream sample_messages sample_environment
    (Client.service sample_client) "chat" []
  = {| pending := [chunk "assistant" "Hi"; chunk "assistant" " there"];
       failure := None |} /\
  exists resp,
    result (Client.chat_complete_stream (ENV := sample_environment)
              sample_client "chat" []) = Return resp /\
    role resp = "assistant" /\
    tokenStream resp
      = GenCreated {| pending := [chunk "assistant" " there"];
                      failure := None |} /\
    forall fuel, 1 < fuel ->
      exists e, drain fuel (tokenStream resp) = Some ([" there"], e).
Proof.
  split; [reflexivity|].
  apply (chat_complete_stream_role_then_rest (ENV := sample_environment)
           sample_client "chat" []).
  reflexivity.
Defined.

Lemma tokenStream_ends_with_RuntimeError_witness :
  exists resp,
    result (Client.chat_complete_stream (ENV := sample_environment)
              sample_client "chat" []) = Return resp /\
    (forall fuel, 1 < fuel ->
       drain fuel (tokenStream resp)
       = Some ([" there"],
               Raised (RuntimeError
                         "async generator raised StopAsyncIteration"))) /\
    (forall fuel toks,
       drain fuel (tokenStream resp) <> Some (toks, Exhausted)).
Proof.
  apply (tokenStream_ends_with_RuntimeError (ENV := sample_environment)
           sample_client "chat" []
           (chunk "assistant" "Hi") [chunk "assistant" " there"]).
  reflexivity.
Defined.

Lemma chat_complete_stream_empty_fails_witness :
  result (Client.chat_complete_stream (ENV := sample_environment)
            sample_client "none" [])
    = Raise StopAsyncIteration /\
  forall resp,
    result (Client.chat_complete_stream (ENV := sample_environment)
              sample_client "none" []) <> Return resp.
Proof.
  destruct (chat_complete_stream_empty_fails (ENV := sample_environment)
              sample_client "none" [] eq_refl) as (_ & Hstop & Hnone).
  split; [apply Hstop; reflexivity|exact Hnone].
Defined.

Lemma init_rejects_missing_api_key_witness :
  (trace (Client.__init__ (ENV := sample_environment)
            (ClientOptions_default None)) = [] /\
   result (Client.__init__ (ENV := sample_environment)
             (ClientOptions_default None))
     = Raise (ValueError "apiKey must be specified")) /\
  (trace (Client.__init__ (ENV := sample_environment)
            {| apiKey := Some ""; baseUrl := "http://localhost:8080/v1" |})
     = [] /\
   result (Client.__init__ (ENV := sample_environment)
             {| apiKey := Some ""; baseUrl := "http://localhost:8080/v1" |})
     = Raise (ValueError "apiKey must be specified")).
Proof.
  split.
  - destruct (init_rejects_missing_api_key (ENV := sample_environment)
                (ClientOptions_default None) (or_introl eq_refl))
      as (Htrace & Hresult & _).
    split; assumption.
  - destruct (init_rejects_missing_api_key (ENV := sample_environment)
                {| apiKey := Some ""; baseUrl := "http://localhost:8080/v1" |}
                (or_intror eq_refl))
      as (Htrace & Hresult & _).
    split; assumption.
Defined.

Lemma channel_follows_base_url_witness :
  exists url port,
    sample_urlparse "https://api.function.network" = Return url /\
    urllib.port url = Return port /\
    trace (Client.__init__ (ENV := sample_environment)
             (ClientOptions_default (Some "secret")))
      = [OpenChannel sample_channel] /\
    Some "api.function.network" = urllib.hostname url /\
    None = port /\
    "" = urllib.path url /\
    (true = true <-> urllib.scheme url = "https").
Proof.
  apply (channel_follows_base_url (ENV := sample_environment)
           (ClientOptions_default (Some "secret")) sample_client).
  reflexivity.
Defined.

Lemma init_accepts_nonempty_api_key_witness :
  trace (Client.__init__ (ENV := sample_environment)
           (ClientOptions_default (Some " ")))
    = [OpenChannel sample_channel] /\
  result (Client.__init__ (ENV := sample_environment)
            (ClientOptions_default (Some " ")))
    = Return {| Client.service :=
                  {| channel := sample_channel;
                     metadata := [("x-api-key", " ")] |} |}.
Proof.
  assert (" " <> "") as Hne by discriminate.
  destruct (init_accepts_nonempty_api_key (ENV := sample_environment)
              " " DEFAULT_BASE_PATH Hne) as (Hopen & _ & _).
  exact (Hopen _ None eq_refl eq_refl).
Defined.

Lemma unary_calls_pass_through_witness :
  result (Client.chat_complete (ENV := sample_environment)
            sample_client "chat" []) = Return "Hello" /\
  result (Client.embed (ENV := sample_environment)
            sample_client "embed" "text") = Return [1%Z; 2%Z] /\
  result (Client.transcribe (ENV := sample_environment)
            sample_client "whisper" "https://audio/a.mp3")
    = Return "transcript".
Proof.
  destruct (unary_calls_pass_through (ENV := sample_environment)
              sample_client) as (Hchat & Hembed & Htranscribe).
  split; [|split].
  - apply Hchat. reflexivity.
  - apply Hembed. reflexivity.
  - apply Htranscribe. reflexivity.
Defined.

(** Three images were requested, the stub's response holds two, and the
    two are returned. *)
Lemma text_to_image_returns_images_witness :
  exists imgs,
    result (Client.text_to_image (ENV := sample_environment)
              sample_client "sd" "a cat" 3%Z true "512x512") = Return imgs /\
    imgs = ["https://img/0"; "https://img/1"] /\
    length imgs = 2.
Proof.
  apply (text_to_image_returns_images (ENV := sample_environment)
           sample_client "sd" "a cat" 3%Z true "512x512"
           (@Build_TextToImageResponse sample_messages
              ["https://img/0"; "https://img/1"])).
  reflexivity.
Defined.

Lemma every_call_carries_api_key_witness :
  metadata (Client.service sample_client) = [("x-api-key", "secret")] /\
  trace (Client.chat_complete_stream (ENV := sample_environment)
           sample_client "chat" [])
    = [RemoteCall sample_channel [("x-api-key", "secret")]
         (@ChatCompleteStreamRequest sample_messages "chat" [])] /\
  trace (Client.text_to_image (ENV := sample_environment)
           sample_client "sd" "a cat" 0%Z false "")
    = [RemoteCall sample_channel [("x-api-key", "secret")]
         (@TextToImageRequest sample_messages "sd" "a cat" 0%Z false "")].
Proof.
  destruct (every_call_carries_api_key (ENV := sample_environment)
              (ClientOptions_default (Some "secret")) sample_client "secret"
              eq_refl eq_refl)
    as (Hmd & _ & Hstream & _ & Himage & _).
  split; [exact Hmd|split].
  - apply Hstream.
  - apply Himage.
Defined.

(** * Further properties of the token stream *)

(** Stepping a suspended generator [k] times, with [k] chunks at hand,
    yields the contents of the first [k] chunks and leaves the others in
    the base. *)
Lemma pull_suspended (k : nat) :
  forall (rest : list functionsdk.ChatCompleteStreamResponse)
         (failure : option exn),
    k <= length rest ->
    pull k (GenSuspended {| pending := rest; failure := failure |})
    = (map Return (contents (firstn k rest)),
       GenSuspended {| pending := skipn k rest; failure := failure |}).
Proof.
  induction k as [|k IH]; intros rest failure Hk.
  - reflexivity.
  - destruct rest as [|c rest]; [inversion Hk|].
    cbn [pull TokenStream_anext]. rewrite body_yields.
    rewrite IH by (simpl in Hk; lia).
    reflexivity.
Qed.

Lemma pull_created (k : nat) (base : AsyncGenerator _) :
  pull (S k) (GenCreated base) = pull (S k) (GenSuspended base).
Proof. reflexivity. Qed.

(** A closed generator stays closed and raises [StopAsyncIteration] at
    every call. *)
Lemma pull_closed (n : nat) :
  pull n GenClosed = (repeat (Raise StopAsyncIteration) n, GenClosed).
Proof.
  induction n as [|n IH]; [reflexivity|].
  cbn [pull TokenStream_anext]. rewrite IH. reflexivity.
Qed.

(** Stepping [a + b] times is stepping [a] times and then [b] times. *)
Lemma pull_add (a b : nat) :
  forall g,
    pull (a + b) g
    = ((fst (pull a g) ++ fst (pull b (snd (pull a g))))%list,
       snd (pull b (snd (pull a g)))).
Proof.
  induction a as [|a IH]; intros g.
  - cbn. destruct (pull b g). reflexivity.
  - cbn [Nat.add pull].
    destruct (TokenStream_anext g) as [got g1].
    rewrite IH.
    destruct (pull a g1) as [outs g2]. cbn [fst snd].
    destruct (pull b g2) as [outs' g3]. reflexivity.
Qed.

(** Stepping a suspended generator through all of its base and beyond. *)
Lemma pull_suspended_past_end
    (rest : list functionsdk.ChatCompleteStreamResponse)
    (failure : option exn) (n : nat) :
  pull (length rest + S n)
    (GenSuspended {| pending := rest; failure := failure |})
  = ((map Return (contents rest)
      ++ Raise (agen_escape (stream_end failure))
         :: repeat (Raise StopAsyncIteration) n)%list,
     GenClosed).
Proof.
  rewrite pull_add, pull_suspended by lia.
  rewrite firstn_all, skipn_all. cbn [fst snd].
  cbn [pull TokenStream_anext]. rewrite body_throws, pull_closed.
  reflexivity.
Qed.

(** Two suspended generators over bases with the same contents and the
    same end give a consumer the same iteration. *)
Lemma drain_same_contents (fuel : nat) :
  forall (rest rest' : list functionsdk.ChatCompleteStreamResponse)
         (failure : option exn),
    contents rest = contents rest' ->
    drain fuel (GenSuspended {| pending := rest; failure := failure |})
    = drain fuel (GenSuspended {| pending := rest'; failure := failure |}).
Proof.
  induction fuel as [|fuel IH]; intros rest rest' failure Hsame;
    [reflexivity|].
  destruct rest as [|c rest], rest' as [|c' rest'];
    try discriminate Hsame; [reflexivity|].
  cbn [contents map] in Hsame. inversion Hsame as [[Hc Hrest]].
  cbn [drain TokenStream_anext]. rewrite !body_yields, Hc.
  rewrite (IH rest rest' failure Hrest). reflexivity.
Qed.

(** X3: a token stream is not restartable.  Stepped through all the
    chunks of its base, it has yielded their contents and then raised
    once; it is closed from then on: every further [__anext__] raises
    [StopAsyncIteration], and a second [async for] over it yields nothing
    and ends by exhaustion. *)
Theorem tokenStream_not_restartable :
  forall (rest : list functionsdk.ChatCompleteStreamResponse)
         (failure : option exn) (n fuel : nat),
    pull (length rest + S n)
      (_chat_complete_stream_wrapper
         {| pending := rest; failure := failure |})
    = ((map Return (contents rest)
        ++ Raise (agen_escape (stream_end failure))
           :: repeat (Raise StopAsyncIteration) n)%list,
       GenClosed) /\
    drain (S fuel)
      (snd (pull (length rest + S n)
              (_chat_complete_stream_wrapper
                 {| pending := rest; failure := failure |})))
    = Some ([], Exhausted).
Proof.
  intros rest failure n fuel.
  unfold _chat_complete_stream_wrapper.
  replace (length rest + S n) with (S (length rest + n)) by lia.
  rewrite pull_created.
  replace (S (length rest + n)) with (length rest + S n) by lia.
  rewrite pull_suspended_past_end.
  split; reflexivity.
Qed.

(** X4: the token stream depends on the contents of the chunks only.  Two
    streams whose chunks carry the same contents, whatever roles the
    chunks name, and that end alike, give the consumer the same tokens
    and the same ending: a role that changes in mid-stream goes
    unnoticed. *)
Theorem tokenStream_ignores_roles :
  forall (rest rest' : list functionsdk.ChatCompleteStreamResponse)
         (failure : option exn) (fuel : nat),
    contents rest = contents rest' ->
    drain fuel (_chat_complete_stream_wrapper
                  {| pending := rest; failure := failure |})
    = drain fuel (_chat_complete_stream_wrapper
                    {| pending := rest'; failure := failure |}).
Proof.
  intros rest rest' failure fuel Hsame.
  unfold _chat_complete_stream_wrapper. rewrite !drain_created.
  apply drain_same_contents, Hsame.
Qed.

Lemma tokenStream_ignores_roles_witness :
  contents [chunk "assistant" "Hel"; chunk "assistant" "lo"]
    = contents [chunk "assistant" "Hel"; chunk "system" "lo"] /\
  drain 3 (_chat_complete_stream_wrapper
             {| pending := [chunk "assistant" "Hel"; chunk "assistant" "lo"];
                failure := None |})
  = drain 3 (_chat_complete_stream_wrapper
               {| pending := [chunk "assistant" "Hel"; chunk "system" "lo"];
                  failure := None |}).
Proof.
  split; [reflexivity|].
  apply (tokenStream_ignores_roles
           [chunk "assistant" "Hel"; chunk "assistant" "lo"]
           [chunk "assistant" "Hel"; chunk "system" "lo"] None 3).
  reflexivity.
Defined.

Section StreamProperties.
Context {MSG : Messages} {ENV : Environment MSG}.

(** X1: a stream that breaks after its first chunk does not fail the
    call.  [chat_complete_stream] returns the record with the first
    chunk's role; the consumer of [tokenStream] receives the contents of
    the chunks that came before the fault and then the fault itself,
    as the stream raised it. *)
Theorem tokenStream_fault_reaches_consumer :
  forall (self : Client.t) (model : string)
         (messages : list ChatCompleteMessage) first rest (e : exn),
    remote_chat_complete_stream (Client.service self) model messages
      = {| pending := first :: rest; failure := Some e |} ->
    e <> StopIteration ->
    e <> StopAsyncIteration ->
    exists resp,
      result (Client.chat_complete_stream self model messages) = Return resp /\
      role resp = functionsdk.role (functionsdk.response first) /\
      forall fuel, length rest < fuel ->
        drain fuel (tokenStream resp) = Some (contents rest, Raised e).
Proof.
  intros self model messages first rest e Hraw Hstop Hastop.
  eexists. unfold result.
  rewrite (chat_complete_stream_first _ _ _ _ _ _ Hraw). cbn [snd].
  split; [reflexivity|]. split; [reflexivity|].
  intros fuel Hfuel. cbn [tokenStream].
  rewrite drain_created, drain_suspended by assumption.
  cbn [stream_end]. destruct e; try reflexivity; contradiction.
Qed.

(** X2: the stream is read one chunk at a time.  The call itself takes
    the first chunk; after [k] further calls of [tokenStream.__anext__()]
    the consumer holds the contents of the next [k] chunks, and the
    generator is suspended over a base that still has every later chunk:
    a consumer who stops early leaves the rest of the stream unread. *)
Theorem tokenStream_reads_on_demand :
  forall (self : Client.t) (model : string)
         (messages : list ChatCompleteMessage) first rest failure (k : nat),
    remote_chat_complete_stream (Client.service self) model messages
      = {| pending := first :: rest; failure := failure |} ->
    0 < k <= length rest ->
    exists resp,
      result (Client.chat_complete_stream self model messages) = Return resp /\
      tokenStream resp
        = _chat_complete_stream_wrapper
            {| pending := rest; failure := failure |} /\
      pull k (tokenStream resp)
        = (map Return (contents (firstn k rest)),
           GenSuspended {| pending := skipn k rest; failure := failure |}).
Proof.
  intros self model messages first rest failure k Hraw [Hpos Hk].
  eexists. unfold result.
  rewrite (chat_complete_stream_first _ _ _ _ _ _ Hraw). cbn [snd].
  split; [reflexivity|]. split; [reflexivity|].
  cbn [tokenStream]. destruct k as [|k]; [inversion Hpos|].
  rewrite pull_created. apply pull_suspended, Hk.
Qed.

End StreamProperties.

Lemma tokenStream_fault_reaches_consumer_witness :
  exists resp,
    result (Client.chat_complete_stream (ENV := sample_faulty_environment)
              sample_client "chat" []) = Return resp /\
    role resp = "assistant" /\
    forall fuel, 2 < fuel ->
      drain fuel (tokenStream resp)
      = Some (["Hel"; "lo"], Raised (Fault "connection reset")).
Proof.
  apply (tokenStream_fault_reaches_consumer (ENV := sample_faulty_environment)
           sample_client "chat" []
           (chunk "assistant" "")
           [chunk "assistant" "Hel"; chunk "assistant" "lo"]
           (Fault "connection reset")).
  - reflexivity.
  - discriminate.
  - discriminate.
Defined.

Lemma tokenStream_reads_on_demand_witness :
  exists resp,
    result (Client.chat_complete_stream (ENV := sample_faulty_environment)
              sample_client "chat" []) = Return resp /\
    tokenStream resp
      = _chat_complete_stream_wrapper
          {| pending := [chunk "assistant" "Hel"; chunk "assistant" "lo"];
             failure := Some (Fault "connection reset") |} /\
    pull 1 (tokenStream resp)
      = ([Return "Hel"],
         GenSuspended {| pending := [chunk "assistant" "lo"];
                         failure := Some (Fault "connection reset") |}).
Proof.
  apply (tokenStream_reads_on_demand (ENV := sample_faulty_environment)
           sample_client "chat" []
           (chunk "assistant" "")
           [chunk "assistant" "Hel"; chunk "assistant" "lo"]
           (Some (Fault "connection reset")) 1).
  - reflexivity.
  - simpl. lia.
Defined.

(** * Further properties of construction *)

Section ConstructionProperties.
Context {MSG : Messages} {ENV : Environment MSG}.

(** Every way [__init__] can go: what it did and how it ended. *)
Lemma init_cases (options : ClientOptions) :
  (Client.__init__ options = ([], Raise (ValueError "apiKey must be specified")))
  \/ (exists e, Client.__init__ options = ([], Raise e))
  \/ (exists c e, Client.__init__ options = ([OpenChannel c], Raise e))
  \/ (exists key,
        apiKey options = Some key /\
        exists c,
          Client.__init__ options
          = ([OpenChannel c],
             Return {| Client.service :=
                         {| channel := c;
                            metadata := [("x-api-key", key)] |} |})).
Proof.
  destruct options as [[key|] base].
  - destruct (String.eqb_spec key "") as [->|Hne].
    + left. reflexivity.
    + right. rewrite (init_with_key key base Hne).
      destruct (urlparse base) as [url|e]; [|left; eexists; reflexivity].
      destruct (urllib.port url) as [port|e]; [|left; eexists; reflexivity].
      cbv zeta. destruct (channel_error _) as [e|].
      * right. left. eexists. eexists. reflexivity.
      * right. right. exists key. split; [reflexivity|].
        eexists. reflexivity.
  - left. reflexivity.
Qed.

(** X5: construction never talks to the remote service and opens at most
    one channel; it returns a client only after it has opened a channel;
    and when it raises, nothing a caller sequences after it runs, so a
    program that fails to construct its client makes no remote call. *)
Theorem init_makes_no_remote_call :
  forall (options : ClientOptions),
    (trace (Client.__init__ options) = [] \/
     exists c, trace (Client.__init__ options) = [OpenChannel c]) /\
    (forall c headers req,
       ~ In (RemoteCall c headers req) (trace (Client.__init__ options))) /\
    (forall self,
       result (Client.__init__ options) = Return self ->
       trace (Client.__init__ options)
         = [OpenChannel (channel (Client.service self))]) /\
    (forall (A : Type) (after : Client.t -> M MSG A) e,
       result (Client.__init__ options) = Raise e ->
       (self <- Client.__init__ options ;; after self)
       = (trace (Client.__init__ options), Raise e)).
Proof.
  intros options. unfold trace, result.
  destruct (init_cases options)
    as [-> | [(e & ->) | [(c & e & ->) | (key & _ & c & ->)]]];
    cbn [fst snd]; (split; [|split; [|split]]).
  - left. reflexivity.
  - intros c headers req [].
  - intros self Hret. discriminate Hret.
  - intros A after e Hraise. inversion Hraise. reflexivity.
  - left. reflexivity.
  - intros c headers req [].
  - intros self Hret. discriminate Hret.
  - intros A after e' Hraise. inversion Hraise. reflexivity.
  - right. exists c. reflexivity.
  - intros c' headers req [Hin|[]]. discriminate Hin.
  - intros self Hret. discriminate Hret.
  - intros A after e' Hraise. inversion Hraise. reflexivity.
  - right. exists c. reflexivity.
  - intros c' headers req [Hin|[]]. discriminate Hin.
  - intros self Hret. inversion Hret. reflexivity.
  - intros A after e Hraise. discriminate Hraise.
Qed.

(** X6: constructing a client and calling one of its operations, in one
    program: the channel is opened first, then the one remote call goes
    over that same channel with the key of the options in its
    [x-api-key] header, for each of the five operations. *)
Theorem construct_then_call :
  forall (options : ClientOptions) (self : Client.t) (key : string),
    apiKey options = Some key ->
    result (Client.__init__ options) = Return self ->
    let c := channel (Client.service self) in
    let did req := [OpenChannel c; RemoteCall c [("x-api-key", key)] req] in
    (forall model messages,
       trace (client <- Client.__init__ options ;;
              Client.chat_complete client model messages)
       = did (ChatCompleteRequest model messages)) /\
    (forall model messages,
       trace (client <- Client.__init__ options ;;
              Client.chat_complete_stream client model messages)
       = did (ChatCompleteStreamRequest model messages)) /\
    (forall model input_string,
       trace (client <- Client.__init__ options ;;
              Client.embed client model input_string)
       = did (EmbedRequest model input_string)) /\
    (forall model prompt count quality size,
       trace (client <- Client.__init__ options ;;
              Client.text_to_image client model prompt count quality size)
       = did (TextToImageRequest model prompt count quality size)) /\
    (forall model url,
       trace (client <- Client.__init__ options ;;
              Client.transcribe client model url)
       = did (TranscribeRequest model url)).
Proof.
  intros options self key Hkey Hinit c did. subst c did.
  revert Hinit. unfold result.
  destruct (init_cases options)
    as [Hi | [(e & Hi) | [(c & e & Hi) | (key' & Hkey' & c & Hi)]]];
    rewrite Hi; cbn [snd]; try discriminate.
  rewrite Hkey in Hkey'. inversion Hkey'; subst key'.
  intros Hself. inversion Hself; subst self; clear Hself.
  cbn [Client.service channel].
  split; [|split; [|split; [|split]]]; intros; unfold trace, bind.
  - unfold Client.chat_complete, Stub.chat_complete, Stub.call. cbn.
    reflexivity.
  - unfold Client.chat_complete_stream, Stub.chat_complete_stream, Stub.call.
    cbn. destruct (anext _) as [[first|e] raw']; reflexivity.
  - unfold Client.embed, Stub.embed, Stub.call. cbn. reflexivity.
  - unfold Client.text_to_image, Stub.text_to_image, Stub.call. cbn.
    destruct (remote_text_to_image _ _ _ _ _ _); reflexivity.
  - unfold Client.transcribe, Stub.transcribe, Stub.call. cbn. reflexivity.
Qed.

End ConstructionProperties.

Lemma construct_then_call_witness :
  trace (client <- Client.__init__ (ENV := sample_environment)
                     (ClientOptions_default (Some "secret")) ;;
         Client.embed (ENV := sample_environment) client "embed" "text")
    = [OpenChannel sample_channel;
       RemoteCall sample_channel [("x-api-key", "secret")]
         (@EmbedRequest sample_messages "embed" "text")] /\
  trace (client <- Client.__init__ (ENV := sample_environment)
                     (ClientOptions_default (Some "secret")) ;;
         Client.chat_complete_stream (ENV := sample_environment)
           client "chat" [])
    = [OpenChannel sample_channel;
       RemoteCall sample_channel [("x-api-key", "secret")]
         (@ChatCompleteStreamRequest sample_messages "chat" [])].
Proof.
  destruct (construct_then_call (ENV := sample_environment)
              (ClientOptions_default (Some "secret")) sample_client "secret"
              eq_refl eq_refl)
    as (_ & Hstream & Hembed & _).
  split; [apply Hembed|apply Hstream].
Defined.

Lemma init_makes_no_remote_call_witness :
  trace (Client.__init__ (ENV := sample_environment)
           (ClientOptions_default (Some "secret")))
    = [OpenChannel sample_channel] /\
  (client <- Client.__init__ (ENV := sample_environment)
               {| apiKey := Some "secret";
                  baseUrl := "https://localhost:grpc" |} ;;
   Client.embed (ENV := sample_environment) client "embed" "text")
    = ([], Raise (ValueError "Port could not be cast to integer value")).
Proof.
  split.
  - destruct (init_makes_no_remote_call (ENV := sample_environment)
                (ClientOptions_default (Some "secret")))
      as (_ & _ & Hopened & _).
    exact (Hopened sample_client eq_refl).
  - destruct (init_makes_no_remote_call (ENV := sample_environment)
                {| apiKey := Some "secret";
                   baseUrl := "https://localhost:grpc" |})
      as (_ & _ & _ & Hstops).
    exact (Hstops _ _ _ eq_refl).
Defined.

Section CallProperties.
Context {MSG : Messages} {ENV : Environment MSG}.

(** X7: [chat_complete_stream] returns a record exactly when the stream
    yields at least one chunk, whatever happens to the stream later; the
    only exception the call raises is the end of a stream without chunks;
    either way it has made its one remote call. *)
Theorem chat_complete_stream_returns_iff_chunk :
  forall (self : Client.t) (model : string)
         (messages : list ChatCompleteMessage),
    ((exists resp,
        result (Client.chat_complete_stream self model messages)
          = Return resp)
     <-> pending (remote_chat_complete_stream
                    (Client.service self) model messages) <> []) /\
    (forall e,
       result (Client.chat_complete_stream self model messages) = Raise e ->
       pending (remote_chat_complete_stream
                  (Client.service self) model messages) = [] /\
       e = stream_end
             (failure (remote_chat_complete_stream
                         (Client.service self) model messages))) /\
    trace (Client.chat_complete_stream self model messages)
    = [RemoteCall (channel (Client.service self))
         (metadata (Client.service self))
         (ChatCompleteStreamRequest model messages)].
Proof.
  intros self model messages. unfold result, trace.
  destruct (remote_chat_complete_stream (Client.service self) model messages)
    as [[|first rest] fault] eqn:Hraw.
  - rewrite (chat_complete_stream_none _ _ _ _ Hraw). cbn [fst snd pending].
    split; [split|split].
    + intros (resp & Hret). discriminate Hret.
    + intros Hne. contradiction Hne. reflexivity.
    + intros e He. inversion He. split; reflexivity.
    + reflexivity.
  - rewrite (chat_complete_stream_first _ _ _ _ _ _ Hraw).
    cbn [fst snd pending].
    split; [split|split].
    + intros _. discriminate.
    + intros _. eexists. reflexivity.
    + intros e He. discriminate He.
    + reflexivity.
Qed.

End CallProperties.

Lemma chat_complete_stream_returns_iff_chunk_witness :
  (exists resp,
     result (Client.chat_complete_stream (ENV := sample_faulty_environment)
               sample_client "chat" []) = Return resp) /\
  forall e,
    result (Client.chat_complete_stream (ENV := sample_environment)
              sample_client "none" []) = Raise e ->
    e = StopAsyncIteration.
Proof.
  split.
  - apply (chat_complete_stream_returns_iff_chunk
             (ENV := sample_faulty_environment) sample_client "chat" []).
    discriminate.
  - intros e He.
    destruct (chat_complete_stream_returns_iff_chunk
                (ENV := sample_environment) sample_client "none" [])
      as (_ & Honly & _).
    exact (proj2 (Honly e He)).
Defined.
